(** * Layout of the generated composite objects (Bin, MugTree)

    A shallow embedding of
    [mimiclabs/envs/objects/generated_objects.py] and the properties of the
    geometry it lays out.

    Numbers.  The source computes with numpy's binary64 floats.  The layout
    is embedded twice.  The classes [Bin] and [MugTree] below carry the
    source's expressions over exact rationals ([Q], compared with [==]):
    what they prove holds of the code where both sides are one expression
    of the source, and holds in exact arithmetic, before rounding, where
    two separately rounded results are compared.  Module [B64] carries the
    same expressions over binary64 ([PrimFloat], round to nearest even, as
    numpy computes them): the values the code emits.

    Angles.  The wall rotations are rational multiples of [np.pi]; an angle is
    kept as that multiple, and the quaternion robosuite computes from it
    ([T.axisangle2quat], [T.convert_quat]) is kept symbolic.

    Host calls.  [add_to_dict], [CustomMaterial], [append_material] and the
    [CompositeObject] constructor belong to robosuite; they are modelled by
    what they record: the keyword lists, the material's fields, and the
    elements appended to the object.  [ET.fromstring] belongs to Python's
    library: what it makes of a site's name is a parameter, [fromstring],
    of the methods that call it. *)

From Stdlib Require Import QArith Qabs Qminmax Lqa Lia List String Bool DecimalString
  PeanoNat.
From Stdlib Require Import Floats.
Import ListNotations.
Open Scope Q_scope.
Set Warnings "-inexact-float".

(** ** numpy 3-arrays *)

Module Np.

Record vec3 : Type := Vec3 { vx : Q; vy : Q; vz : Q }.

(** [a + b], [a - b] on arrays, and [a / s] of an array by a scalar. *)
Definition add (a b : vec3) : vec3 :=
  Vec3 (vx a + vx b) (vy a + vy b) (vz a + vz b).

Definition sub (a b : vec3) : vec3 :=
  Vec3 (vx a - vx b) (vy a - vy b) (vz a - vz b).

Definition div (a : vec3) (s : Q) : vec3 :=
  Vec3 (vx a / s) (vy a / s) (vz a / s).

(** Equality of arrays as numbers, component by component. *)
Definition eqv (a b : vec3) : Prop :=
  vx a == vx b /\ vy a == vy b /\ vz a == vz b.

End Np.

Import Np.

Infix "=v=" := Np.eqv (at level 70, no associativity).

(** ** Angles and orientations *)

(** [PiTimes k] is the angle [k * np.pi], in radians. *)
Inductive angle : Type := PiTimes (k : Q).

Definition np_pi : angle := PiTimes 1.
Definition rad0 : angle := PiTimes 0.
Definition angle_neg (a : angle) : angle :=
  match a with PiTimes k => PiTimes (- k) end.
Definition angle_div (a : angle) (s : Q) : angle :=
  match a with PiTimes k => PiTimes (k / s) end.

Definition degrees (a : angle) : Q :=
  match a with PiTimes k => 180 * k end.

(** An orientation is either a quaternion written out in the source,
    [(w, x, y, z)], or the quaternion robosuite derives from an axis-angle
    vector: [T.convert_quat(T.axisangle2quat(np.array([rx, ry, rz])), to="wxyz")]. *)
Inductive orientation : Type :=
| Quat (w x y z : Q)
| AxisAngleWXYZ (rx ry rz : angle).

(** [rotation_about_z o d]: [o] is the rotation by [d] degrees about z. *)
Definition rotation_about_z (o : orientation) (d : Q) : Prop :=
  exists r, o = AxisAngleWXYZ rad0 rad0 r /\ degrees r == d.

(** ** Colours *)

Definition rgba_t : Type := (Q * Q * Q * Q)%type.

Definition rgba_alpha (c : rgba_t) : Q := snd c.

Definition rgba_eq (c d : rgba_t) : Prop :=
  match c, d with
  | (r1, g1, b1, a1), (r2, g2, b2, a2) =>
      r1 == r2 /\ g1 == g2 /\ b1 == b2 /\ a1 == a2
  end.

(** ** Primitive geometries and the keyword dictionary of [add_to_dict] *)

(** The keyword values of one [add_to_dict] call: one primitive geometry. *)
Record geom : Type := Geom {
  g_type : string;
  g_location : vec3;
  g_quat : orientation;
  g_size : vec3;
  g_name : string;
  g_rgba : option rgba_t;
  g_material : option string;
  g_friction : option vec3
}.

(** [obj_args]: one list per keyword. *)
Record geom_dict : Type := GeomDict {
  geom_types : list string;
  geom_locations : list vec3;
  geom_quats : list orientation;
  geom_sizes : list vec3;
  geom_names : list string;
  geom_rgbas : list (option rgba_t);
  geom_materials : list (option string);
  geom_frictions : list (option vec3)
}.

Definition empty_dict : geom_dict := GeomDict [] [] [] [] [] [] [] [].

(** robosuite's [add_to_dict(dic, **kwargs)]: every keyword's value is
    appended to the list stored under that keyword. *)
Definition add_to_dict (dic : geom_dict) (g : geom) : geom_dict :=
  {| geom_types := geom_types dic ++ [g_type g];
     geom_locations := geom_locations dic ++ [g_location g];
     geom_quats := geom_quats dic ++ [g_quat g];
     geom_sizes := geom_sizes dic ++ [g_size g];
     geom_names := geom_names dic ++ [g_name g];
     geom_rgbas := geom_rgbas dic ++ [g_rgba g];
     geom_materials := geom_materials dic ++ [g_material g];
     geom_frictions := geom_frictions dic ++ [g_friction g] |}.

(** The primitives a dictionary describes, read index by index the way
    [CompositeObject] does: the i-th primitive takes the i-th entry of every
    list. *)
Fixpoint zip_geoms (ts : list string) (ls : list vec3) (qs : list orientation)
         (ss : list vec3) (ns : list string) (cs : list (option rgba_t))
         (ms : list (option string)) (fs : list (option vec3)) : list geom :=
  match ts, ls, qs, ss, ns, cs, ms, fs with
  | t :: ts', l :: ls', q :: qs', s :: ss', n :: ns', c :: cs', m :: ms', f :: fs' =>
      Geom t l q s n c m f :: zip_geoms ts' ls' qs' ss' ns' cs' ms' fs'
  | _, _, _, _, _, _, _, _ => []
  end.

Definition geom_list (d : geom_dict) : list geom :=
  zip_geoms (geom_types d) (geom_locations d) (geom_quats d) (geom_sizes d)
            (geom_names d) (geom_rgbas d) (geom_materials d) (geom_frictions d).

Definition geom_at (d : geom_dict) (i : nat) : option geom :=
  nth_error (geom_list d) i.

(** The keyword arguments handed to [CompositeObject.__init__]:
    [obj_args] updated with [base_args]. *)
Record composite_args : Type := CompositeArgs {
  geoms : geom_dict;
  total_size : vec3;
  arg_name : string;
  locations_relative_to_center : bool;
  obj_types : string;
  arg_density : Q
}.

(** ** Sites and materials *)

(** The attributes of a [<site .../>] element. *)
Record site : Type := Site {
  site_name : string;
  site_type : string;
  site_pos : vec3;
  site_quat : orientation;
  site_size : vec3;
  site_rgba : rgba_t;
  site_group : Z
}.

(** The arguments of robosuite's [CustomMaterial]. *)
Record custom_material : Type := CustomMaterial {
  texture : string;
  tex_name : string;
  mat_name : string;
  tex_attrib : list (string * string);
  mat_attrib : list (string * string)
}.

(** ** Appearance of a primitive *)

Definition is_some {A : Type} (o : option A) : bool :=
  match o with Some _ => true | None => false end.

Definition both_set (g : geom) : bool :=
  is_some (g_material g) && is_some (g_rgba g).

Definition exactly_one_set (g : geom) : bool :=
  xorb (is_some (g_material g)) (is_some (g_rgba g)).

(** ** Python helpers *)

(** [enumerate(l)]. *)
Fixpoint enumerate_from {A : Type} (i : nat) (l : list A) : list (nat * A) :=
  match l with
  | [] => []
  | a :: l' => (i, a) :: enumerate_from (S i) l'
  end.

Definition enumerate {A : Type} (l : list A) : list (nat * A) :=
  enumerate_from 0 l.

(** [zip(xs, ys, ws, rs)]. *)
Definition zip4 {A B C D : Type} (xs : list A) (ys : list B) (ws : list C)
           (rs : list D) : list (A * B * C * D) :=
  map (fun t => match t with (x, (y, (w, r))) => (x, y, w, r) end)
      (combine xs (combine ys (combine ws rs))).

(** [str(i)] for a natural number. *)
Definition str_of_nat (i : nat) : string :=
  NilZero.string_of_uint (Nat.to_uint i).

(** ** Outcome of a constructor: the object, or a raised exception *)

(** [ParseError] is what [ET.fromstring] raises on a string that is not
    well-formed XML.  The other two are the errors the specification names;
    the source has no [raise] statement and no assertion. *)
Inductive exn : Type := ConfigurationError | NamingConflictError | ParseError.

Inductive result (A : Type) : Type :=
| Ok (a : A)
| Raise (e : exn).

Arguments Ok {A} a.
Arguments Raise {A} e.

(** ** Parsing a site string *)

(** Both classes write their site as a string,
    [<site name='{self.name}_..._region' type='box' pos=... />], with the
    name pasted in unescaped, and hand it to [ET.fromstring].

    [fromstring raw], a parameter of the methods below, is what Python's
    parser makes of such a string whose name attribute is written
    [name='raw']: [Some n] when the string parses, [n] being the name of the
    element it returns, and [None] when it raises [ParseError].  The other
    attributes are written from numbers and literals. *)
Definition with_site_name (n : string) (s : site) : site :=
  {| site_name := n;
     site_type := site_type s;
     site_pos := site_pos s;
     site_quat := site_quat s;
     site_size := site_size s;
     site_rgba := site_rgba s;
     site_group := site_group s |}.

Definition parse_site (fromstring : string -> option string) (site_str : site)
  : result site :=
  match fromstring (site_name site_str) with
  | Some n => Ok (with_site_name n site_str)
  | None => Raise ParseError
  end.


(** ** class Bin *)

Module Bin.

(** The arguments of [Bin.__init__]. *)
Record params : Type := Params {
  p_name : string;
  p_bin_size : vec3;
  p_wall_thickness : Q;
  p_transparent_walls : bool;
  p_friction : option vec3;
  p_density : Q;
  p_use_texture : bool;
  p_rgba : option rgba_t
}.

(** The defaults of the signature. *)
Definition defaults : params :=
  {| p_name := "bin";
     p_bin_size := Vec3 0.05 0.05 0.12;
     p_wall_thickness := 0.01;
     p_transparent_walls := false;
     p_friction := None;
     p_density := 1000.0;
     p_use_texture := true;
     p_rgba := Some (0.2, 0.1, 0.0, 1.0) |}.

(** The attributes [__init__] sets before it calls the superclass. *)
Record attrs : Type := Attrs {
  name : string;
  bin_size : vec3;
  wall_thickness : Q;
  transparent_walls : bool;
  friction : option vec3;
  density : Q;
  use_texture : bool;
  rgba : option rgba_t;
  bin_mat_name : string;
  _base_geom : string
}.

Definition set_attrs (p : params) : attrs :=
  {| name := p_name p;
     bin_size := p_bin_size p;
     wall_thickness := p_wall_thickness p;
     transparent_walls := p_transparent_walls p;
     friction := p_friction p;
     density := p_density p;
     use_texture := p_use_texture p;
     rgba := p_rgba p;
     bin_mat_name := "light_wood_mat";
     _base_geom := "base" |}.

Definition x_vals (self : attrs) : list Q :=
  [ 0;
    - (vx (bin_size self) - wall_thickness self) / 2;
    0;
    (vx (bin_size self) - wall_thickness self) / 2 ].

Definition y_vals (self : attrs) : list Q :=
  [ - (vy (bin_size self) - wall_thickness self) / 2;
    0;
    (vy (bin_size self) - wall_thickness self) / 2;
    0 ].

Definition w_vals (self : attrs) : list Q :=
  [ vx (bin_size self); vy (bin_size self);
    vx (bin_size self); vy (bin_size self) ].

Definition r_vals : list angle :=
  [ angle_div np_pi 2; rad0; angle_div (angle_neg np_pi) 2; np_pi ].

Definition wall_rgba (self : attrs) : option rgba_t :=
  if transparent_walls self then Some (1.0, 1.0, 1.0, 0.3)
  else if use_texture self then None else rgba self.

Definition wall_mat (self : attrs) : option string :=
  if transparent_walls self then None
  else if use_texture self then Some (bin_mat_name self) else None.

Definition base (self : attrs) : geom :=
  {| g_type := "box";
     g_location :=
       Vec3 0 0 (- (vz (bin_size self) - wall_thickness self) / 2);
     g_quat := Quat 1 0 0 0;
     g_size :=
       Np.div
         (Np.sub
            (Vec3 (vx (bin_size self)) (vy (bin_size self)) (wall_thickness self))
            (Vec3 (wall_thickness self) (wall_thickness self) 0))
         2;
     g_name := _base_geom self;
     g_rgba := if use_texture self then None else rgba self;
     g_material := if use_texture self then Some (bin_mat_name self) else None;
     g_friction := friction self |}.

Definition wall (self : attrs) (i : nat) (x y w : Q) (r : angle) : geom :=
  {| g_type := "box";
     g_location := Vec3 x y 0;
     g_quat := AxisAngleWXYZ rad0 rad0 r;
     g_size := Vec3 (wall_thickness self / 2) (w / 2) (vz (bin_size self) / 2);
     g_name := "wall" ++ str_of_nat i;
     g_rgba := wall_rgba self;
     g_material := wall_mat self;
     g_friction := friction self |}.

Definition _get_geom_attrs (self : attrs) : composite_args :=
  let obj_args := add_to_dict empty_dict (base self) in
  let obj_args :=
    fold_left
      (fun dic e =>
         match e with
         | (i, (x, y, w, r)) => add_to_dict dic (wall self i x y w r)
         end)
      (enumerate (zip4 (x_vals self) (y_vals self) (w_vals self) r_vals))
      obj_args in
  {| geoms := obj_args;
     total_size := Np.div (bin_size self) 2.0;
     arg_name := name self;
     locations_relative_to_center := true;
     obj_types := "all";
     arg_density := density self |}.

(** [site_str] of [_add_contain_region_site]: the element as the method
    writes it, name unparsed. *)
Definition contain_region_site_str (self : attrs) : site :=
  let contain_size_x := (vx (bin_size self) - 2 * wall_thickness self) / 2 in
  let contain_size_y := (vy (bin_size self) - 2 * wall_thickness self) / 2 in
  let contain_size_z := (vz (bin_size self) - wall_thickness self) / 2 in
  let contain_pos_z := wall_thickness self / 2 in
  {| site_name := name self ++ "_contain_region";
     site_type := "box";
     site_pos := Vec3 0 0 contain_pos_z;
     site_quat := Quat 1 0 0 0;
     site_size := Vec3 contain_size_x contain_size_y contain_size_z;
     site_rgba := (0.8, 0, 0, 0);
     site_group := 0%Z |}.

(** [_add_contain_region_site]: the element [ET.fromstring] returns for
    [site_str], which the method appends to the object, or the parser's
    error. *)
Definition _add_contain_region_site (fromstring : string -> option string)
           (self : attrs) : result site :=
  parse_site fromstring (contain_region_site_str self).

(** The constructed object: its attributes, what the superclass received,
    and what was appended to it. *)
Record t : Type := Object {
  self_attrs : attrs;
  super_args : composite_args;
  sites : list site;
  materials : list custom_material;
  category_name : string;
  rotation : option (Q * Q);
  rotation_axis : string;
  object_properties : list (string * list (string * string))
}.

(** [Bin.__init__].  It has no [raise] of its own; an error of
    [_add_contain_region_site] ends it before the material is appended. *)
Definition init (fromstring : string -> option string) (p : params) : result t :=
  let self := set_attrs p in
  let args := _get_geom_attrs self in
  match _add_contain_region_site fromstring self with
  | Raise e => Raise e
  | Ok contain_region =>
      let tex_attrib := [("type", "cube")]%string in
      let mat_attrib :=
        [("texrepeat", "3 3"); ("specular", "0.4"); ("shininess", "0.1")]%string in
      let bin_mat :=
        CustomMaterial "WoodLight" "light_wood" (bin_mat_name self)
                       tex_attrib mat_attrib in
      Ok {| self_attrs := self;
            super_args := args;
            sites := [contain_region];
            materials := [bin_mat];
            category_name := "bin";
            rotation := Some (0.0, 0.0);
            rotation_axis := "x";
            object_properties := [("vis_site_names"%string, [])] |}
  end.

(** The [base_geoms] property.  [correct_naming] is the host's renaming of
    an element name (a method of robosuite's [MujocoObject]). *)
Definition base_geoms (correct_naming : string -> string) (o : t) : list string :=
  [correct_naming (_base_geom (self_attrs o))].

End Bin.

(** ** class MugTree *)

Module MugTree.

(** The arguments of [MugTree.__init__]; [name] has no default. *)
Record params : Type := Params {
  p_name : string;
  p_base_size : vec3;
  p_branch_height : Q;
  p_branch_size : vec3;
  p_tree_size : vec3;
  p_friction : option vec3;
  p_density : Q;
  p_use_texture : bool;
  p_rgba : option rgba_t
}.

Definition defaults (nm : string) : params :=
  {| p_name := nm;
     p_base_size := Vec3 0.16 0.16 0.03;
     p_branch_height := 0.12;
     p_branch_size := Vec3 0.08 0.005 0.015;
     p_tree_size := Vec3 0.03 0.03 0.16;
     p_friction := None;
     p_density := 5000.0;
     p_use_texture := true;
     p_rgba := Some (0.2, 0.1, 0.0, 1.0) |}.

Record attrs : Type := Attrs {
  name : string;
  base_size : vec3;
  branch_height : Q;
  branch_size : vec3;
  tree_size : vec3;
  friction : option vec3;
  density : Q;
  use_texture : bool;
  rgba : option rgba_t;
  bin_mat_name : string;
  _base_geom : string
}.

Definition set_attrs (p : params) : attrs :=
  {| name := p_name p;
     base_size := p_base_size p;
     branch_height := p_branch_height p;
     branch_size := p_branch_size p;
     tree_size := p_tree_size p;
     friction := p_friction p;
     density := p_density p;
     use_texture := p_use_texture p;
     rgba := p_rgba p;
     bin_mat_name := "light_wood_mat";
     _base_geom := "base" |}.

Definition base (self : attrs) : geom :=
  {| g_type := "box";
     g_location :=
       Vec3 0 0
            (vz (base_size self) / 2
             - (vz (tree_size self) + vz (base_size self)) / 2);
     g_quat := Quat 1 0 0 0;
     g_size := Np.div (base_size self) 2;
     g_name := _base_geom self;
     g_rgba := if use_texture self then None else rgba self;
     g_material := if use_texture self then Some (bin_mat_name self) else None;
     g_friction := friction self |}.

Definition tree (self : attrs) : geom :=
  {| g_type := "box";
     g_location :=
       Vec3 0 0
            (vz (base_size self) + vz (tree_size self) / 2
             - (vz (tree_size self) + vz (base_size self)) / 2);
     g_quat := Quat 1 0 0 0;
     g_size := Np.div (tree_size self) 2;
     g_name := "tree";
     g_rgba := if use_texture self then None else rgba self;
     g_material := if use_texture self then Some (bin_mat_name self) else None;
     g_friction := friction self |}.

Definition branches (self : attrs) : geom :=
  {| g_type := "box";
     g_location :=
       Vec3 (vx (tree_size self) / 2 + vx (branch_size self) / 2)
            0
            (vz (base_size self) + branch_height self
             - (vz (tree_size self) + vz (base_size self)) / 2);
     g_quat := Quat 1 0 0 0;
     g_size := Np.div (branch_size self) 2;
     g_name := "branches";
     g_rgba := if use_texture self then None else rgba self;
     g_material := if use_texture self then Some (bin_mat_name self) else None;
     g_friction := friction self |}.

Definition _get_geom_attrs (self : attrs) : composite_args :=
  let obj_args := add_to_dict empty_dict (base self) in
  let obj_args := add_to_dict obj_args (tree self) in
  let obj_args := add_to_dict obj_args (branches self) in
  {| geoms := obj_args;
     total_size :=
       Np.div (Np.add (base_size self) (Vec3 0 0 (vz (tree_size self)))) 2.0;
     arg_name := name self;
     locations_relative_to_center := true;
     obj_types := "all";
     arg_density := density self |}.

(** [site_str] of [_add_hang_region_site]: the element as the method writes
    it, name unparsed. *)
Definition hang_region_site_str (self : attrs) : site :=
  let hang_size_x := vx (branch_size self) / 2 in
  let hang_size_y := vx (branch_size self) / 2 in
  let hang_size_z := vz (tree_size self) / 2 * 0.5 in
  let hang_pos_x := vx (tree_size self) / 2 + vx (branch_size self) / 2 in
  let hang_pos_y := 0 in
  let hang_pos_z :=
    vz (base_size self) + branch_height self
    - (vz (tree_size self) + vz (base_size self)) / 2
    - hang_size_z in
  {| site_name := name self ++ "_hang_region";
     site_type := "box";
     site_pos := Vec3 hang_pos_x hang_pos_y hang_pos_z;
     site_quat := Quat 1 0 0 0;
     site_size := Vec3 hang_size_x hang_size_y hang_size_z;
     site_rgba := (0, 0.8, 0, 0.3);
     site_group := 0%Z |}.

(** [_add_hang_region_site]: the element [ET.fromstring] returns for
    [site_str], which the method appends to the object, or the parser's
    error. *)
Definition _add_hang_region_site (fromstring : string -> option string)
           (self : attrs) : result site :=
  parse_site fromstring (hang_region_site_str self).

Record t : Type := Object {
  self_attrs : attrs;
  super_args : composite_args;
  sites : list site;
  materials : list custom_material;
  category_name : string;
  rotation : option (Q * Q);
  rotation_axis : string;
  object_properties : list (string * list (string * string))
}.

(** [MugTree.__init__].  It has no [raise] of its own; an error of
    [_add_hang_region_site] ends it before the material is appended. *)
Definition init (fromstring : string -> option string) (p : params) : result t :=
  let self := set_attrs p in
  let args := _get_geom_attrs self in
  match _add_hang_region_site fromstring self with
  | Raise e => Raise e
  | Ok hang_region =>
      let tex_attrib := [("type", "cube")]%string in
      let mat_attrib :=
        [("texrepeat", "3 3"); ("specular", "0.4"); ("shininess", "0.1")]%string in
      let bin_mat :=
        CustomMaterial "WoodLight" "light_wood" (bin_mat_name self)
                       tex_attrib mat_attrib in
      Ok {| self_attrs := self;
            super_args := args;
            sites := [hang_region];
            materials := [bin_mat];
            category_name := "mug_tree";
            rotation := None;
            rotation_axis := "x";
            object_properties := [("vis_site_names"%string, [])] |}
  end.

(** The [base_geoms] property.  [correct_naming] is the host's renaming of
    an element name (a method of robosuite's [MujocoObject]). *)
Definition base_geoms (correct_naming : string -> string) (o : t) : list string :=
  [correct_naming (_base_geom (self_attrs o))].

End MugTree.

(** ** Faces of a box *)

(** A box centred at [c] with half-extent [h] along one axis spans
    [c - h .. c + h] along it. *)
Definition lower_face (c h : Q) : Q := c - h.
Definition upper_face (c h : Q) : Q := c + h.

(** ** The layout in binary64 *)

(** The numbers of the layout as the code computes them.  Every definition
    is the source's expression with numpy's float64 operations: [+], [-],
    [*], [/] and negation of [PrimFloat], each rounded to nearest even.
    Python's integer constants ([0], [2]) enter the expressions as floats,
    as numpy converts them. *)
Module B64.

Import PrimFloat.
#[local] Set Warnings "-inexact-float".
#[local] Open Scope float_scope.

Record vec3 : Type := Vec3 { vx : float; vy : float; vz : float }.

Definition add (a b : vec3) : vec3 :=
  Vec3 (vx a + vx b) (vy a + vy b) (vz a + vz b).

Definition sub (a b : vec3) : vec3 :=
  Vec3 (vx a - vx b) (vy a - vy b) (vz a - vz b).

Definition div (a : vec3) (s : float) : vec3 :=
  Vec3 (vx a / s) (vy a / s) (vz a / s).

Definition lower_face (c h : float) : float := c - h.
Definition upper_face (c h : float) : float := c + h.

(** The numeric attributes of a [Bin]. *)
Record bin : Type := Bin {
  bin_size : vec3;
  wall_thickness : float
}.

Definition bin_defaults : bin :=
  {| bin_size := Vec3 0.05 0.05 0.12; wall_thickness := 0.01 |}.

Definition bin_total_size (self : bin) : vec3 := div (bin_size self) 2.0.

Definition bin_base_location (self : bin) : vec3 :=
  Vec3 0 0 (- (vz (bin_size self) - wall_thickness self) / 2).

Definition bin_base_size (self : bin) : vec3 :=
  div (sub (Vec3 (vx (bin_size self)) (vy (bin_size self)) (wall_thickness self))
           (Vec3 (wall_thickness self) (wall_thickness self) 0))
      2.

Definition bin_x_vals (self : bin) : list float :=
  [ 0;
    - (vx (bin_size self) - wall_thickness self) / 2;
    0;
    (vx (bin_size self) - wall_thickness self) / 2 ].

Definition bin_y_vals (self : bin) : list float :=
  [ - (vy (bin_size self) - wall_thickness self) / 2;
    0;
    (vy (bin_size self) - wall_thickness self) / 2;
    0 ].

Definition bin_w_vals (self : bin) : list float :=
  [ vx (bin_size self); vy (bin_size self);
    vx (bin_size self); vy (bin_size self) ].

Definition bin_wall_location (x y : float) : vec3 := Vec3 x y 0.

Definition bin_wall_size (self : bin) (w : float) : vec3 :=
  Vec3 (wall_thickness self / 2) (w / 2) (vz (bin_size self) / 2).

(** [contain_size_x], [contain_size_y], [contain_size_z]. *)
Definition bin_contain_size (self : bin) : vec3 :=
  Vec3 ((vx (bin_size self) - 2 * wall_thickness self) / 2)
       ((vy (bin_size self) - 2 * wall_thickness self) / 2)
       ((vz (bin_size self) - wall_thickness self) / 2).

Definition bin_contain_pos (self : bin) : vec3 :=
  Vec3 0 0 (wall_thickness self / 2).

(** The numeric attributes of a [MugTree]. *)
Record mug_tree : Type := MugTree {
  base_size : vec3;
  branch_height : float;
  branch_size : vec3;
  tree_size : vec3
}.

Definition mug_tree_defaults : mug_tree :=
  {| base_size := Vec3 0.16 0.16 0.03;
     branch_height := 0.12;
     branch_size := Vec3 0.08 0.005 0.015;
     tree_size := Vec3 0.03 0.03 0.16 |}.

Definition mug_tree_total_size (self : mug_tree) : vec3 :=
  div (add (base_size self) (Vec3 0 0 (vz (tree_size self)))) 2.0.

Definition mug_tree_base_location (self : mug_tree) : vec3 :=
  Vec3 0 0
       (vz (base_size self) / 2
        - (vz (tree_size self) + vz (base_size self)) / 2).

Definition mug_tree_base_size (self : mug_tree) : vec3 :=
  div (base_size self) 2.

Definition mug_tree_tree_location (self : mug_tree) : vec3 :=
  Vec3 0 0
       (vz (base_size self) + vz (tree_size self) / 2
        - (vz (tree_size self) + vz (base_size self)) / 2).

Definition mug_tree_tree_size (self : mug_tree) : vec3 :=
  div (tree_size self) 2.

Definition mug_tree_branches_location (self : mug_tree) : vec3 :=
  Vec3 (vx (tree_size self) / 2 + vx (branch_size self) / 2)
       0
       (vz (base_size self) + branch_height self
        - (vz (tree_size self) + vz (base_size self)) / 2).

Definition mug_tree_branches_size (self : mug_tree) : vec3 :=
  div (branch_size self) 2.

(** [hang_size_x], [hang_size_y], [hang_size_z]. *)
Definition mug_tree_hang_size (self : mug_tree) : vec3 :=
  Vec3 (vx (branch_size self) / 2)
       (vx (branch_size self) / 2)
       (vz (tree_size self) / 2 * 0.5).

(** [hang_pos_x], [hang_pos_y], [hang_pos_z]. *)
Definition mug_tree_hang_pos (self : mug_tree) : vec3 :=
  Vec3 (vx (tree_size self) / 2 + vx (branch_size self) / 2)
       0
       (vz (base_size self) + branch_height self
        - (vz (tree_size self) + vz (base_size self)) / 2
        - vz (mug_tree_hang_size self)).

End B64.

(** ** Aligned dictionaries *)

(** Every keyword list of the dictionary has length [n]: [add_to_dict] is
    always called with all eight keywords, so the lists grow together. *)
Definition aligned (n : nat) (d : geom_dict) : Prop :=
  List.length (geom_types d) = n /\
  List.length (geom_locations d) = n /\
  List.length (geom_quats d) = n /\
  List.length (geom_sizes d) = n /\
  List.length (geom_names d) = n /\
  List.length (geom_rgbas d) = n /\
  List.length (geom_materials d) = n /\
  List.length (geom_frictions d) = n.

(** ** Parameter sets used below *)


(** A Bin with flat colouring requested and no colour given:
    [use_texture=False, rgba=None]. *)
Definition bin_flat_no_rgba : Bin.params :=
  {| Bin.p_name := "bin";
     Bin.p_bin_size := Vec3 0.05 0.05 0.12;
     Bin.p_wall_thickness := 0.01;
     Bin.p_transparent_walls := false;
     Bin.p_friction := None;
     Bin.p_density := 1000.0;
     Bin.p_use_texture := false;
     Bin.p_rgba := None |}.

(** The numbers of [bin_thick_walls], in binary64. *)
Definition b64_bin_thick_walls : B64.bin :=
  {| B64.bin_size := B64.Vec3 0.05%float 0.05%float 0.12%float;
     B64.wall_thickness := 0.03%float |}.

(** The default MugTree with [base_size = (0.16, 0.16, 0.02)], with
    [branch_size = (0.04, 0.005, 0.015)], and with [branch_height = 0.04]. *)
Definition b64_mug_tree_thin_base : B64.mug_tree :=
  {| B64.base_size := B64.Vec3 0.16%float 0.16%float 0.02%float;
     B64.branch_height := 0.12%float;
     B64.branch_size := B64.Vec3 0.08%float 0.005%float 0.015%float;
     B64.tree_size := B64.Vec3 0.03%float 0.03%float 0.16%float |}.

Definition b64_mug_tree_short_branch : B64.mug_tree :=
  {| B64.base_size := B64.Vec3 0.16%float 0.16%float 0.03%float;
     B64.branch_height := 0.12%float;
     B64.branch_size := B64.Vec3 0.04%float 0.005%float 0.015%float;
     B64.tree_size := B64.Vec3 0.03%float 0.03%float 0.16%float |}.

Definition b64_mug_tree_low_branch : B64.mug_tree :=
  {| B64.base_size := B64.Vec3 0.16%float 0.16%float 0.03%float;
     B64.branch_height := 0.04%float;
     B64.branch_size := B64.Vec3 0.08%float 0.005%float 0.015%float;
     B64.tree_size := B64.Vec3 0.03%float 0.03%float 0.16%float |}.

(** The contain region and the overall half-extent of the default bin. *)
Definition default_contain_region : site :=
  Bin.contain_region_site_str (Bin.set_attrs Bin.defaults).

Definition default_bin_half_extent : vec3 :=
  total_size (Bin._get_geom_attrs (Bin.set_attrs Bin.defaults)).

(** ** Appearance classes *)

(** The appearance every non-wall primitive receives. *)
Definition plain_appearance (use_texture : bool) (rgba : option rgba_t)
           (mat : string) (g : geom) : Prop :=
  g_material g = (if use_texture then Some mat else None) /\
  g_rgba g = (if use_texture then None else rgba) /\
  both_set g = false /\
  exactly_one_set g = (use_texture || is_some rgba).

(** ** Parameter sets derived from others *)

(** The same parameters with another [rgba] argument. *)
Definition bin_with_rgba (c : option rgba_t) (p : Bin.params) : Bin.params :=
  {| Bin.p_name := Bin.p_name p;
     Bin.p_bin_size := Bin.p_bin_size p;
     Bin.p_wall_thickness := Bin.p_wall_thickness p;
     Bin.p_transparent_walls := Bin.p_transparent_walls p;
     Bin.p_friction := Bin.p_friction p;
     Bin.p_density := Bin.p_density p;
     Bin.p_use_texture := Bin.p_use_texture p;
     Bin.p_rgba := c |}.

Definition mug_tree_with_rgba (c : option rgba_t) (p : MugTree.params)
  : MugTree.params :=
  {| MugTree.p_name := MugTree.p_name p;
     MugTree.p_base_size := MugTree.p_base_size p;
     MugTree.p_branch_height := MugTree.p_branch_height p;
     MugTree.p_branch_size := MugTree.p_branch_size p;
     MugTree.p_tree_size := MugTree.p_tree_size p;
     MugTree.p_friction := MugTree.p_friction p;
     MugTree.p_density := MugTree.p_density p;
     MugTree.p_use_texture := MugTree.p_use_texture p;
     MugTree.p_rgba := c |}.

(** ** Boxes in the parent frame *)

(** A box with all three half-extents positive. *)
Definition positive_box (s : vec3) : Prop :=
  0 < vx s /\ 0 < vy s /\ 0 < vz s.

(** The number of quarter turns an angle makes, when it is a whole number
    of them. *)
Definition quarter_turns (a : angle) : option Z :=
  match a with
  | PiTimes k =>
      let q := Qred (2 * k) in
      if Pos.eqb (Qden q) 1 then Some (Qnum q) else None
  end.

Definition is_zero_angle (a : angle) : bool :=
  match a with PiTimes k => Qeq_bool k 0 end.

(** The half-extents, along the parent's axes, of a box of half-extents [s]
    turned by [o].  Defined where the turned box is still axis-aligned and
    [o] is of the shapes the generators use: the identity quaternion, and a
    whole number of quarter turns about z, an odd number of which exchanges
    the x and y extents. *)
Definition turned_half_extents (o : orientation) (s : vec3) : option vec3 :=
  match o with
  | Quat w x y z =>
      if Qeq_bool w 1 && Qeq_bool x 0 && Qeq_bool y 0 && Qeq_bool z 0
      then Some s else None
  | AxisAngleWXYZ rx ry rz =>
      if is_zero_angle rx && is_zero_angle ry
      then match quarter_turns rz with
           | Some n => Some (if Z.odd n then Vec3 (vy s) (vx s) (vz s) else s)
           | None => None
           end
      else None
  end.

(** Every material a primitive refers to is among the given materials. *)
Definition material_resolves (ms : list custom_material) (g : geom) : Prop :=
  match g_material g with
  | Some m => exists mat, In mat ms /\ mat_name mat = m
  | None => True
  end.

(** ** Proof steps shared by the layout theorems *)

(** Unfold the generators down to arithmetic on the parameters, leaving the
    rational operations folded. *)
Ltac unfold_layout :=
  repeat match goal with x := _ |- _ => subst x end;
  cbv beta zeta delta
    [ Np.eqv Np.add Np.sub Np.div rgba_alpha degrees lower_face upper_face
      Bin.set_attrs Bin.base Bin.wall Bin.contain_region_site_str
      Bin.wall_rgba Bin.wall_mat Bin._get_geom_attrs
      MugTree.set_attrs MugTree.base MugTree.tree MugTree.branches
      MugTree.hang_region_site_str MugTree._get_geom_attrs ];
  cbn [ vx vy vz nth_error map snd fst
        g_type g_location g_quat g_size g_name g_rgba g_material g_friction
        site_name site_type site_pos site_quat site_size site_rgba site_group
        total_size
        Bin.name Bin.bin_size Bin.wall_thickness Bin.transparent_walls
        Bin.friction Bin.density Bin.use_texture Bin.rgba Bin.bin_mat_name
        Bin._base_geom
        MugTree.name MugTree.base_size MugTree.branch_height
        MugTree.branch_size MugTree.tree_size MugTree.friction MugTree.density
        MugTree.use_texture MugTree.rgba MugTree.bin_mat_name
        MugTree._base_geom ].

(** Split a conjunction of equations and close each by reflexivity or by
    field arithmetic. *)
Ltac solve_layout :=
  unfold_layout;
  repeat match goal with |- _ /\ _ => split end;
  first [ reflexivity | field ].

(** * Properties *)

(** ** [add_to_dict] and the primitives read back *)

Lemma aligned_empty : aligned 0 empty_dict.
Proof. repeat split. Qed.

Lemma aligned_add_to_dict (n : nat) (d : geom_dict) (g : geom) :
  aligned n d -> aligned (S n) (add_to_dict d g).
Proof.
  unfold aligned, add_to_dict; cbn.
  intros (H1 & H2 & H3 & H4 & H5 & H6 & H7 & H8).
  rewrite !length_app, H1, H2, H3, H4, H5, H6, H7, H8; cbn.
  rewrite Nat.add_1_r. repeat split.
Qed.

Lemma zip_geoms_snoc ts : forall ls qs ss ns cs ms fs t l q s n c m f,
  List.length ls = List.length ts -> List.length qs = List.length ts ->
  List.length ss = List.length ts -> List.length ns = List.length ts ->
  List.length cs = List.length ts -> List.length ms = List.length ts ->
  List.length fs = List.length ts ->
  zip_geoms (ts ++ [t]) (ls ++ [l]) (qs ++ [q]) (ss ++ [s]) (ns ++ [n])
            (cs ++ [c]) (ms ++ [m]) (fs ++ [f])
  = zip_geoms ts ls qs ss ns cs ms fs ++ [Geom t l q s n c m f].
Proof.
  induction ts as [|t0 ts IH];
    intros [|l0 ls] [|q0 qs] [|s0 ss] [|n0 ns] [|c0 cs] [|m0 ms] [|f0 fs];
    intros t l q s n c m f Hl Hq Hs Hn Hc Hm Hf;
    try discriminate; cbn in *.
  - reflexivity.
  - f_equal. apply IH; congruence.
Qed.

(** Adding a primitive to an aligned dictionary appends it to the primitives
    read back from the dictionary, and leaves the earlier ones alone. *)
Lemma geom_list_add_to_dict (n : nat) (d : geom_dict) (g : geom) :
  aligned n d -> geom_list (add_to_dict d g) = geom_list d ++ [g].
Proof.
  intros (H1 & H2 & H3 & H4 & H5 & H6 & H7 & H8).
  unfold geom_list, add_to_dict; cbn.
  rewrite zip_geoms_snoc by congruence.
  destruct g; reflexivity.
Qed.

Lemma geom_list_length (n : nat) (d : geom_dict) :
  aligned n d -> List.length (geom_list d) = n.
Proof.
  revert d. induction n as [|n IH]; intros [ts ls qs ss ns cs ms fs];
    unfold aligned, geom_list; cbn;
    intros (H1 & H2 & H3 & H4 & H5 & H6 & H7 & H8).
  - destruct ts; [reflexivity | discriminate].
  - destruct ts, ls, qs, ss, ns, cs, ms, fs; try discriminate; cbn.
    f_equal.
    apply (IH (GeomDict ts ls qs ss ns cs ms fs)).
    unfold aligned; cbn in *. repeat split; congruence.
Qed.

(** The dictionaries of both generators are aligned: five primitives for a
    Bin, three for a MugTree. *)
Lemma bin_dict_aligned (self : Bin.attrs) :
  aligned 5 (geoms (Bin._get_geom_attrs self)).
Proof. repeat split. Qed.

Lemma mug_tree_dict_aligned (self : MugTree.attrs) :
  aligned 3 (geoms (MugTree._get_geom_attrs self)).
Proof.
  unfold MugTree._get_geom_attrs; cbn [geoms].
  do 3 apply aligned_add_to_dict. apply aligned_empty.
Qed.

(** ** The primitives of each generator, listed *)

Lemma bin_geom_list (self : Bin.attrs) :
  geom_list (geoms (Bin._get_geom_attrs self)) =
  [ Bin.base self;
    Bin.wall self 0 0 (- (vy (Bin.bin_size self) - Bin.wall_thickness self) / 2)
             (vx (Bin.bin_size self)) (PiTimes (1 / 2));
    Bin.wall self 1 (- (vx (Bin.bin_size self) - Bin.wall_thickness self) / 2) 0
             (vy (Bin.bin_size self)) (PiTimes 0);
    Bin.wall self 2 0 ((vy (Bin.bin_size self) - Bin.wall_thickness self) / 2)
             (vx (Bin.bin_size self)) (PiTimes (- (1) / 2));
    Bin.wall self 3 ((vx (Bin.bin_size self) - Bin.wall_thickness self) / 2) 0
             (vy (Bin.bin_size self)) (PiTimes 1) ].
Proof. reflexivity. Qed.

Lemma mug_tree_geom_list (self : MugTree.attrs) :
  geom_list (geoms (MugTree._get_geom_attrs self)) =
  [ MugTree.base self; MugTree.tree self; MugTree.branches self ].
Proof.
  unfold MugTree._get_geom_attrs; cbn [geoms].
  rewrite (geom_list_add_to_dict 2)
    by (do 2 apply aligned_add_to_dict; apply aligned_empty).
  rewrite (geom_list_add_to_dict 1)
    by (apply aligned_add_to_dict; apply aligned_empty).
  rewrite (geom_list_add_to_dict 0) by apply aligned_empty.
  reflexivity.
Qed.

(** ** Bin layout *)

(** C1.  For every Bin parameter set, the overall half-extent is binSize/2,
    and the first primitive is the base: a box named "base" with half-extents
    ((binSize.x - wallThickness)/2, (binSize.y - wallThickness)/2,
    wallThickness/2), the identity quaternion, located at
    (0, 0, -(binSize.z - wallThickness)/2). *)
Theorem C1_bin_base_primitive (p : Bin.params) :
  let self := Bin.set_attrs p in
  let args := Bin._get_geom_attrs self in
  let b := Bin.p_bin_size p in
  let wt := Bin.p_wall_thickness p in
  total_size args =v= Vec3 (vx b / 2) (vy b / 2) (vz b / 2) /\
  exists g,
    geom_at (geoms args) 0 = Some g /\
    g_name g = "base"%string /\
    g_type g = "box"%string /\
    g_size g =v= Vec3 ((vx b - wt) / 2) ((vy b - wt) / 2) (wt / 2) /\
    g_quat g = Quat 1 0 0 0 /\
    g_location g =v= Vec3 0 0 (- ((vz b - wt) / 2)).
Proof.
  intros self args b wt. split.
  - unfold args, self. solve_layout.
  - exists (Bin.base self). unfold geom_at, args.
    rewrite bin_geom_list. unfold self. solve_layout.
Qed.

(** C2.  For every Bin parameter set the primitives after the base are
    exactly four walls, "wall0" .. "wall3" in that order; their rotations
    about z are 90, 0, -90 and 180 degrees; each is centred at z = 0 and
    offset along one horizontal axis only, by (that axis's extent -
    wallThickness)/2 in magnitude (-y, -x, +y, +x in order); and wall i has
    half-extents (wallThickness/2, w_i/2, binSize.z/2) with
    w = (binSize.x, binSize.y, binSize.x, binSize.y). *)
Theorem C2_bin_wall_primitives (p : Bin.params) :
  let self := Bin.set_attrs p in
  let args := Bin._get_geom_attrs self in
  let b := Bin.p_bin_size p in
  let wt := Bin.p_wall_thickness p in
  exists g0 w0 w1 w2 w3,
    geom_list (geoms args) = [g0; w0; w1; w2; w3] /\
    map g_name [g0; w0; w1; w2; w3]
      = ["base"; "wall0"; "wall1"; "wall2"; "wall3"]%string /\
    map g_type [w0; w1; w2; w3] = ["box"; "box"; "box"; "box"]%string /\
    (rotation_about_z (g_quat w0) 90 /\
     rotation_about_z (g_quat w1) 0 /\
     rotation_about_z (g_quat w2) (-90) /\
     rotation_about_z (g_quat w3) 180) /\
    (g_location w0 =v= Vec3 0 (- ((vy b - wt) / 2)) 0 /\
     g_location w1 =v= Vec3 (- ((vx b - wt) / 2)) 0 0 /\
     g_location w2 =v= Vec3 0 ((vy b - wt) / 2) 0 /\
     g_location w3 =v= Vec3 ((vx b - wt) / 2) 0 0) /\
    (Qabs (vy (g_location w0)) == Qabs ((vy b - wt) / 2) /\
     Qabs (vx (g_location w1)) == Qabs ((vx b - wt) / 2) /\
     Qabs (vy (g_location w2)) == Qabs ((vy b - wt) / 2) /\
     Qabs (vx (g_location w3)) == Qabs ((vx b - wt) / 2)) /\
    (g_size w0 =v= Vec3 (wt / 2) (vx b / 2) (vz b / 2) /\
     g_size w1 =v= Vec3 (wt / 2) (vy b / 2) (vz b / 2) /\
     g_size w2 =v= Vec3 (wt / 2) (vx b / 2) (vz b / 2) /\
     g_size w3 =v= Vec3 (wt / 2) (vy b / 2) (vz b / 2)).
Proof.
  intros self args b wt. unfold args.
  rewrite bin_geom_list.
  do 5 eexists. split; [reflexivity|].
  split; [reflexivity|]. split; [reflexivity|].
  split.
  { repeat match goal with |- _ /\ _ => split end;
      eexists; (split; [reflexivity|]); unfold_layout; field. }
  split; [unfold self; solve_layout|].
  split; [|unfold self; solve_layout].
  unfold self; unfold_layout.
  repeat match goal with |- _ /\ _ => split end;
    try reflexivity; rewrite <- Qabs_opp; apply Qabs_wd; field.
Qed.

(** C3.  For every Bin parameter set the contain-region marker is a box
    with half-extents ((binSize.x - 2 wallThickness)/2,
    (binSize.y - 2 wallThickness)/2, (binSize.z - wallThickness)/2), located
    at (0, 0, wallThickness/2) with the identity quaternion, of alpha 0 and
    group 0.  So the method writes it, and so it is, under the name the
    parser returns, in every object the constructor builds, where it is the
    only site; the constructor builds none only when the parser rejects the
    site string, raising its ParseError. *)
Theorem C3_bin_contain_region (fromstring : string -> option string)
        (p : Bin.params) :
  let b := Bin.p_bin_size p in
  let wt := Bin.p_wall_thickness p in
  let s0 := Bin.contain_region_site_str (Bin.set_attrs p) in
  (site_type s0 = "box"%string /\
   site_size s0 =v= Vec3 ((vx b - 2 * wt) / 2) ((vy b - 2 * wt) / 2)
                         ((vz b - wt) / 2) /\
   site_pos s0 =v= Vec3 0 0 (wt / 2) /\
   site_quat s0 = Quat 1 0 0 0 /\
   rgba_alpha (site_rgba s0) == 0 /\
   site_group s0 = 0%Z) /\
  match Bin.init fromstring p with
  | Ok o =>
      exists s,
        Bin.sites o = [s] /\
        fromstring (site_name s0) = Some (site_name s) /\
        s = with_site_name (site_name s) s0
  | Raise e => e = ParseError /\ fromstring (site_name s0) = None
  end.
Proof.
  intros b wt s0. split.
  - unfold s0. solve_layout.
  - unfold Bin.init, Bin._add_contain_region_site, parse_site. fold s0.
    destruct (fromstring (site_name s0)) as [n|] eqn:E.
    + exists (with_site_name n s0). repeat split; assumption.
    + split; reflexivity.
Qed.

(** ** MugTree layout *)

(** Against C4 as stated: in binary64 the faces do not always coincide.
    With baseSize.z = 0.02 (the rest at the defaults) the top face of the
    base is at -0.07 and the bottom face of the post at
    -0.06999999999999999; with branchSize.x = 0.04 the branch's inner face is
    at 0.015000000000000003 and the post's outer face at 0.015. *)
Lemma C4_faces_apart_in_binary64 :
  (B64.upper_face (B64.vz (B64.mug_tree_base_location b64_mug_tree_thin_base))
                  (B64.vz (B64.mug_tree_base_size b64_mug_tree_thin_base))
   = (-0.07)%float /\
   B64.lower_face (B64.vz (B64.mug_tree_tree_location b64_mug_tree_thin_base))
                  (B64.vz (B64.mug_tree_tree_size b64_mug_tree_thin_base))
   = (-0.06999999999999999)%float /\
   PrimFloat.eqb (-0.07)%float (-0.06999999999999999)%float = false) /\
  (B64.lower_face
     (B64.vx (B64.mug_tree_branches_location b64_mug_tree_short_branch))
     (B64.vx (B64.mug_tree_branches_size b64_mug_tree_short_branch))
   = 0.015000000000000003%float /\
   B64.upper_face
     (B64.vx (B64.mug_tree_tree_location b64_mug_tree_short_branch))
     (B64.vx (B64.mug_tree_tree_size b64_mug_tree_short_branch))
   = 0.015%float /\
   PrimFloat.eqb 0.015000000000000003%float 0.015%float = false).
Proof. repeat split; vm_compute; reflexivity. Qed.

(** C4, as the code has it.  For every MugTree parameter set the overall
    half-extent is (baseSize + (0, 0, treeSize.z))/2 and the primitives are
    the base, the tree post and the branch, the branch centred at
    x = treeSize.x/2 + branchSize.x/2.  In exact arithmetic the top face of
    the base is the bottom face of the post and the branch's -x face is the
    post's +x face; the binary64 values need not agree, see
    [C4_faces_apart_in_binary64]. *)
Theorem C4_mug_tree_stacked_and_flush (p : MugTree.params) :
  let self := MugTree.set_attrs p in
  let args := MugTree._get_geom_attrs self in
  let bs := MugTree.p_base_size p in
  let ts := MugTree.p_tree_size p in
  let brs := MugTree.p_branch_size p in
  total_size args =v= Vec3 (vx bs / 2) (vy bs / 2) ((vz bs + vz ts) / 2) /\
  exists gb gt gbr,
    geom_list (geoms args) = [gb; gt; gbr] /\
    map g_name [gb; gt; gbr] = ["base"; "tree"; "branches"]%string /\
    upper_face (vz (g_location gb)) (vz (g_size gb))
      == lower_face (vz (g_location gt)) (vz (g_size gt)) /\
    lower_face (vx (g_location gbr)) (vx (g_size gbr))
      == upper_face (vx (g_location gt)) (vx (g_size gt)) /\
    vx (g_location gbr) == vx ts / 2 + vx brs / 2.
Proof.
  intros self args bs ts brs. split.
  - solve_layout.
  - exists (MugTree.base self), (MugTree.tree self), (MugTree.branches self).
    split; [apply mug_tree_geom_list|].
    split; [reflexivity|].
    solve_layout.
Qed.

(** Against C5 as stated: in binary64 the top face of the hang region is
    not always at the branch's z.  With branchHeight = 0.04 (the rest at the
    defaults) the top face is at -0.025 and the branch's centre at
    -0.024999999999999994. *)
Lemma C5_top_face_apart_in_binary64 :
  B64.upper_face (B64.vz (B64.mug_tree_hang_pos b64_mug_tree_low_branch))
                 (B64.vz (B64.mug_tree_hang_size b64_mug_tree_low_branch))
  = (-0.025)%float /\
  B64.vz (B64.mug_tree_branches_location b64_mug_tree_low_branch)
  = (-0.024999999999999994)%float /\
  PrimFloat.eqb (-0.025)%float (-0.024999999999999994)%float = false.
Proof. repeat split; vm_compute; reflexivity. Qed.

(** C5, as the code has it.  For every MugTree parameter set the hang-region
    marker is written with half-extents (branchSize.x/2, branchSize.x/2,
    treeSize.z/2 * 0.5), a quarter of treeSize.z, with the branch
    primitive's x (in binary64 too: the same expression) and y = 0.  In
    exact arithmetic its top face is at the z of the branch primitive's
    centre; the binary64 values need not agree, see
    [C5_top_face_apart_in_binary64].  The marker is the only site of every
    object the constructor builds. *)
Theorem C5_mug_tree_hang_region (fromstring : string -> option string)
        (p : MugTree.params) (d : B64.mug_tree) :
  let self := MugTree.set_attrs p in
  let ts := MugTree.p_tree_size p in
  let brs := MugTree.p_branch_size p in
  let s0 := MugTree.hang_region_site_str self in
  (exists gbr,
     geom_at (geoms (MugTree._get_geom_attrs self)) 2 = Some gbr /\
     g_name gbr = "branches"%string /\
     site_size s0 =v= Vec3 (vx brs / 2) (vx brs / 2) (vz ts / 4) /\
     vx (site_pos s0) == vx (g_location gbr) /\
     vy (site_pos s0) == 0 /\
     upper_face (vz (site_pos s0)) (vz (site_size s0)) == vz (g_location gbr)) /\
  B64.vx (B64.mug_tree_hang_pos d) = B64.vx (B64.mug_tree_branches_location d) /\
  match MugTree.init fromstring p with
  | Ok o =>
      exists s,
        MugTree.sites o = [s] /\
        s = with_site_name (site_name s) s0
  | Raise e => e = ParseError
  end.
Proof.
  intros self ts brs s0. split; [|split].
  - exists (MugTree.branches self).
    split; [reflexivity|]. split; [reflexivity|].
    unfold s0, self. solve_layout.
  - reflexivity.
  - unfold MugTree.init, MugTree._add_hang_region_site, parse_site. fold self s0.
    destruct (fromstring (site_name s0)) as [n|].
    + exists (with_site_name n s0). split; reflexivity.
    + reflexivity.
Qed.

(** ** Construction and degenerate parameters *)


(** What the code emits there, in binary64: 0.03 is at least 0.05/2, the
    base has half-extents (0.010000000000000002, 0.010000000000000002, 0.015)
    and the contain region (-0.0049999999999999975, -0.0049999999999999975,
    0.045). *)
Example bin_thick_walls_geometry :
  PrimFloat.leb (0.05 / 2)%float (B64.wall_thickness b64_bin_thick_walls)
  = true /\
  B64.bin_base_size b64_bin_thick_walls
  = B64.Vec3 0.010000000000000002%float 0.010000000000000002%float 0.015%float /\
  B64.bin_contain_size b64_bin_thick_walls
  = B64.Vec3 (-0.0049999999999999975)%float (-0.0049999999999999975)%float
             0.045%float.
Proof. repeat split; vm_compute; reflexivity. Qed.




(** ** Appearance *)

(** Against C7 as stated: with use_texture = False and rgba = None the base
    primitive has neither a material nor an RGBA. *)
Lemma C7_neither_appearance_set :
  exists g,
    geom_at (geoms (Bin._get_geom_attrs (Bin.set_attrs bin_flat_no_rgba))) 0
      = Some g /\
    g_material g = None /\ g_rgba g = None /\
    exactly_one_set g = false.
Proof. eexists. repeat split; reflexivity. Qed.

Lemma plain_appearance_intro (use_texture : bool) (rgba : option rgba_t)
      (mat : string) (g : geom) :
  g_material g = (if use_texture then Some mat else None) ->
  g_rgba g = (if use_texture then None else rgba) ->
  plain_appearance use_texture rgba mat g.
Proof.
  intros Hm Hc. unfold plain_appearance, both_set, exactly_one_set.
  rewrite Hm, Hc. destruct use_texture, rgba; repeat split; reflexivity.
Qed.

(** C7, as the code has it.  No primitive of either generator has both a
    material and an RGBA.  With transparent_walls true the four walls of a
    Bin, and not its base, have the RGBA (1, 1, 1, 0.3) and no material,
    whatever use_texture and rgba are.  Every other primitive (the base,
    the walls of a Bin without transparent walls, the primitives of a
    MugTree) has the material "light_wood_mat" and no RGBA when use_texture
    is true, and the given rgba and no material when it is not: exactly one
    of the two, unless use_texture is false and rgba is None, when it has
    neither. *)
Theorem C7_appearance_at_most_one (pb : Bin.params) (pm : MugTree.params) :
  let bin := geom_list (geoms (Bin._get_geom_attrs (Bin.set_attrs pb))) in
  let mug := geom_list (geoms (MugTree._get_geom_attrs (MugTree.set_attrs pm))) in
  Forall (fun g => both_set g = false) (bin ++ mug) /\
  Forall (plain_appearance (MugTree.p_use_texture pm) (MugTree.p_rgba pm)
                           "light_wood_mat") mug /\
  exists g0 walls,
    bin = g0 :: walls /\ List.length walls = 4%nat /\
    plain_appearance (Bin.p_use_texture pb) (Bin.p_rgba pb) "light_wood_mat" g0 /\
    Forall (fun w =>
              if Bin.p_transparent_walls pb
              then g_material w = None /\
                   (exists c, g_rgba w = Some c /\ rgba_eq c (1, 1, 1, 3 # 10)) /\
                   exactly_one_set w = true
              else plain_appearance (Bin.p_use_texture pb) (Bin.p_rgba pb)
                                    "light_wood_mat" w)
           walls.
Proof.
  intros bin mug.
  assert (Hmug : Forall (plain_appearance (MugTree.p_use_texture pm)
                           (MugTree.p_rgba pm) "light_wood_mat") mug).
  { unfold mug. rewrite mug_tree_geom_list.
    repeat (apply Forall_cons; [apply plain_appearance_intro; reflexivity|]).
    apply Forall_nil. }
  assert (Hwalls : forall i x y w r,
             let g := Bin.wall (Bin.set_attrs pb) i x y w r in
             if Bin.p_transparent_walls pb
             then g_material g = None /\
                  (exists c, g_rgba g = Some c /\ rgba_eq c (1, 1, 1, 3 # 10)) /\
                  exactly_one_set g = true
             else plain_appearance (Bin.p_use_texture pb) (Bin.p_rgba pb)
                                   "light_wood_mat" g).
  { intros i x y w r g. unfold g.
    destruct (Bin.p_transparent_walls pb) eqn:Ht.
    - unfold exactly_one_set; cbn. unfold Bin.wall_mat, Bin.wall_rgba; cbn.
      rewrite Ht. split; [reflexivity|]. split; [|reflexivity].
      eexists; split; [reflexivity|]. repeat split; reflexivity.
    - apply plain_appearance_intro; cbn;
        unfold Bin.wall_mat, Bin.wall_rgba; cbn; rewrite Ht; reflexivity. }
  assert (Hbase : plain_appearance (Bin.p_use_texture pb) (Bin.p_rgba pb)
                    "light_wood_mat" (Bin.base (Bin.set_attrs pb))).
  { apply plain_appearance_intro; reflexivity. }
  split; [|split; [exact Hmug|]].
  - apply Forall_app. split.
    + unfold bin. rewrite bin_geom_list.
      apply Forall_cons; [apply Hbase|].
      repeat (apply Forall_cons;
              [ match goal with
                | |- both_set (Bin.wall _ ?i ?x ?y ?w ?r) = false =>
                    specialize (Hwalls i x y w r); cbv zeta in Hwalls;
                    unfold both_set;
                    destruct (Bin.p_transparent_walls pb);
                    [ destruct Hwalls as [-> _]; reflexivity
                    | apply Hwalls ]
                end |]).
      apply Forall_nil.
    + eapply Forall_impl; [|exact Hmug]. intros g Hg. apply Hg.
  - unfold bin. rewrite bin_geom_list.
    do 2 eexists. split; [reflexivity|]. split; [reflexivity|].
    split; [exact Hbase|].
    repeat (apply Forall_cons; [apply Hwalls|]). apply Forall_nil.
Qed.

(** ** The contain region inside the bin *)

(** Against C8 as stated: at the signature's defaults (binSize =
    (0.05, 0.05, 0.12), wallThickness = 0.01, all extents positive and the
    thickness below each of them) no contain-region half-extent is strictly
    less than the bin half-extent minus the wall thickness: x and y are equal
    to it and z exceeds it.  Nor is the z half-extent below
    (binSize.z - wallThickness)/2, the other reading of the bound. *)
Lemma C8_not_strictly_less_at_defaults :
  (0 < Bin.p_wall_thickness Bin.defaults /\
   Bin.p_wall_thickness Bin.defaults < vx (Bin.p_bin_size Bin.defaults) /\
   Bin.p_wall_thickness Bin.defaults < vy (Bin.p_bin_size Bin.defaults) /\
   Bin.p_wall_thickness Bin.defaults < vz (Bin.p_bin_size Bin.defaults)) /\
  ~ vx (site_size default_contain_region)
      < vx default_bin_half_extent - Bin.p_wall_thickness Bin.defaults /\
  ~ vy (site_size default_contain_region)
      < vy default_bin_half_extent - Bin.p_wall_thickness Bin.defaults /\
  ~ vz (site_size default_contain_region)
      < vz default_bin_half_extent - Bin.p_wall_thickness Bin.defaults /\
  ~ vz (site_size default_contain_region)
      < (vz (Bin.p_bin_size Bin.defaults) - Bin.p_wall_thickness Bin.defaults) / 2.
Proof.
  repeat match goal with |- _ /\ _ => split end;
    try reflexivity; apply Qle_not_lt; vm_compute; discriminate.
Qed.

(** C8, as the code has it.  When 0 < wallThickness, 2 wallThickness <=
    binSize.x, 2 wallThickness <= binSize.y and wallThickness <= binSize.z,
    then in exact arithmetic every contain-region half-extent is
    non-negative and strictly less than the bin's half-extent on that axis.
    It is not strictly less than the bin half-extent minus the wall
    thickness: in x and y it equals it, and in z it is the bin half-extent
    minus half the wall thickness. *)
Theorem C8_contain_region_inside_bin (p : Bin.params)
  (Hwt : 0 < Bin.p_wall_thickness p)
  (Hx : 2 * Bin.p_wall_thickness p <= vx (Bin.p_bin_size p))
  (Hy : 2 * Bin.p_wall_thickness p <= vy (Bin.p_bin_size p))
  (Hz : Bin.p_wall_thickness p <= vz (Bin.p_bin_size p)) :
  let self := Bin.set_attrs p in
  let wt := Bin.p_wall_thickness p in
  let s := Bin.contain_region_site_str self in
  let h := total_size (Bin._get_geom_attrs self) in
  (0 <= vx (site_size s) /\ 0 <= vy (site_size s) /\ 0 <= vz (site_size s)) /\
  (vx (site_size s) < vx h /\ vy (site_size s) < vy h /\
   vz (site_size s) < vz h) /\
  (vx (site_size s) == vx h - wt /\ vy (site_size s) == vy h - wt /\
   vz (site_size s) == vz h - wt / 2).
Proof.
  intros self wt s h. unfold_layout.
  set (a := vx (Bin.p_bin_size p)) in *.
  set (b := vy (Bin.p_bin_size p)) in *.
  set (c := vz (Bin.p_bin_size p)) in *.
  set (w := Bin.p_wall_thickness p) in *.
  setoid_replace ((a - 2 * w) / 2) with (a * (1 # 2) - w) by field.
  setoid_replace ((b - 2 * w) / 2) with (b * (1 # 2) - w) by field.
  setoid_replace ((c - w) / 2) with (c * (1 # 2) - w * (1 # 2)) by field.
  setoid_replace (a / 2.0) with (a * (1 # 2)) by field.
  setoid_replace (b / 2.0) with (b * (1 # 2)) by field.
  setoid_replace (c / 2.0) with (c * (1 # 2)) by field.
  setoid_replace (w / 2) with (w * (1 # 2)) by field.
  repeat match goal with |- _ /\ _ => split end; lra.
Qed.

Lemma C8_contain_region_inside_bin_witness :
  (0 < Bin.p_wall_thickness Bin.defaults /\
   2 * Bin.p_wall_thickness Bin.defaults <= vx (Bin.p_bin_size Bin.defaults) /\
   2 * Bin.p_wall_thickness Bin.defaults <= vy (Bin.p_bin_size Bin.defaults) /\
   Bin.p_wall_thickness Bin.defaults <= vz (Bin.p_bin_size Bin.defaults)) /\
  (0 <= vx (site_size default_contain_region) /\
   0 <= vy (site_size default_contain_region) /\
   0 <= vz (site_size default_contain_region)) /\
  (vx (site_size default_contain_region) < vx default_bin_half_extent /\
   vy (site_size default_contain_region) < vy default_bin_half_extent /\
   vz (site_size default_contain_region) < vz default_bin_half_extent).
Proof.
  assert (H0 : 0 < Bin.p_wall_thickness Bin.defaults) by reflexivity.
  assert (Hx : 2 * Bin.p_wall_thickness Bin.defaults
               <= vx (Bin.p_bin_size Bin.defaults))
    by (vm_compute; discriminate).
  assert (Hy : 2 * Bin.p_wall_thickness Bin.defaults
               <= vy (Bin.p_bin_size Bin.defaults))
    by (vm_compute; discriminate).
  assert (Hz : Bin.p_wall_thickness Bin.defaults
               <= vz (Bin.p_bin_size Bin.defaults))
    by (vm_compute; discriminate).
  split; [repeat split; assumption|].
  destruct (C8_contain_region_inside_bin Bin.defaults H0 Hx Hy Hz)
    as (Hnonneg & Hless & _).
  split; [exact Hnonneg | exact Hless].
Defined.

(** ** The default bin, in numbers *)

(** Against C9 as stated: for binSize = (0.05, 0.05, 0.12) and
    wallThickness = 0.01 the base half-extents are not (0.015, 0.015, 0.005);
    the x half-extent is 0.02. *)
Lemma C9_base_half_extent_is_not_0015 :
  exists g,
    geom_at (geoms (Bin._get_geom_attrs (Bin.set_attrs Bin.defaults))) 0 = Some g /\
    g_name g = "base"%string /\
    vx (g_size g) == 0.02 /\
    ~ g_size g =v= Vec3 0.015 0.015 0.005.
Proof.
  eexists. split; [reflexivity|]. split; [reflexivity|].
  split; [reflexivity|].
  intros [Hx _]. vm_compute in Hx. discriminate Hx.
Qed.

(** C9, as the code has it.  For binSize = (0.05, 0.05, 0.12) and
    wallThickness = 0.01 the base primitive's half-extents are
    (0.02, 0.02, 0.005), in binary64 as in exact arithmetic.  The contain
    region's are (0.015, 0.015, 0.055) in exact arithmetic; in binary64 the
    code emits (0.015000000000000001, 0.015000000000000001, 0.055). *)
Theorem C9_default_bin_half_extents :
  (B64.bin_base_size B64.bin_defaults
   = B64.Vec3 0.02%float 0.02%float 0.005%float /\
   B64.bin_contain_size B64.bin_defaults
   = B64.Vec3 0.015000000000000001%float 0.015000000000000001%float
              0.055%float) /\
  (Bin.p_bin_size Bin.defaults =v= Vec3 0.05 0.05 0.12 /\
   Bin.p_wall_thickness Bin.defaults == 0.01 /\
   g_size (Bin.base (Bin.set_attrs Bin.defaults)) =v= Vec3 0.02 0.02 0.005 /\
   site_size (Bin.contain_region_site_str (Bin.set_attrs Bin.defaults))
     =v= Vec3 0.015 0.015 0.055).
Proof.
  split.
  - split; vm_compute; reflexivity.
  - repeat split; reflexivity.
Qed.

(** * Further properties of the generators *)

(** ** Names and the keyword lists *)

(** X1.  Within one assembly no two primitives share a name: the five names
    of a Bin and the three of a MugTree are pairwise different. *)
Theorem X1_primitive_names_unique (pb : Bin.params) (pm : MugTree.params) :
  NoDup (geom_names (geoms (Bin._get_geom_attrs (Bin.set_attrs pb)))) /\
  NoDup (geom_names (geoms (MugTree._get_geom_attrs (MugTree.set_attrs pm)))).
Proof.
  split.
  - change (NoDup ["base"; "wall0"; "wall1"; "wall2"; "wall3"]%string).
    repeat (apply NoDup_cons; [cbn; intuition discriminate|]).
    apply NoDup_nil.
  - change (NoDup ["base"; "tree"; "branches"]%string).
    repeat (apply NoDup_cons; [cbn; intuition discriminate|]).
    apply NoDup_nil.
Qed.

(** X2.  The dictionary each generator hands to the superclass has its eight
    keyword lists of one length, five for a Bin and three for a MugTree, and
    that many primitives are read back from it: no primitive lacks an
    attribute. *)
Theorem X2_keyword_lists_aligned (pb : Bin.params) (pm : MugTree.params) :
  let bin := geoms (Bin._get_geom_attrs (Bin.set_attrs pb)) in
  let mug := geoms (MugTree._get_geom_attrs (MugTree.set_attrs pm)) in
  aligned 5 bin /\ List.length (geom_list bin) = 5%nat /\
  aligned 3 mug /\ List.length (geom_list mug) = 3%nat.
Proof.
  intros bin mug.
  assert (Hb : aligned 5 bin) by apply bin_dict_aligned.
  assert (Hm : aligned 3 mug) by apply mug_tree_dict_aligned.
  split; [exact Hb|]. split; [exact (geom_list_length 5 bin Hb)|].
  split; [exact Hm|]. exact (geom_list_length 3 mug Hm).
Qed.

(** X3.  "base" names exactly one primitive of the assembly, the first, in
    a Bin and in a MugTree alike; and of every object the constructors
    build, [base_geoms] reports the host's renaming of "base". *)
Theorem X3_base_geoms_names_one_primitive
        (correct_naming : string -> string)
        (fromstring : string -> option string)
        (pb : Bin.params) (pm : MugTree.params) :
  let bin := geom_names (geoms (Bin._get_geom_attrs (Bin.set_attrs pb))) in
  let mug := geom_names (geoms (MugTree._get_geom_attrs (MugTree.set_attrs pm))) in
  count_occ string_dec bin "base"%string = 1%nat /\
  count_occ string_dec mug "base"%string = 1%nat /\
  nth_error bin 0 = Some "base"%string /\
  nth_error mug 0 = Some "base"%string /\
  match Bin.init fromstring pb with
  | Ok ob =>
      Bin.base_geoms correct_naming ob = [correct_naming "base"%string] /\
      geom_names (geoms (Bin.super_args ob)) = bin
  | Raise _ => True
  end /\
  match MugTree.init fromstring pm with
  | Ok om =>
      MugTree.base_geoms correct_naming om = [correct_naming "base"%string] /\
      geom_names (geoms (MugTree.super_args om)) = mug
  | Raise _ => True
  end.
Proof.
  intros bin mug.
  split; [reflexivity|]. split; [reflexivity|].
  split; [reflexivity|]. split; [reflexivity|].
  split.
  - unfold Bin.init, Bin._add_contain_region_site, parse_site.
    destruct (fromstring _); [split; reflexivity | exact I].
  - unfold MugTree.init, MugTree._add_hang_region_site, parse_site.
    destruct (fromstring _); [split; reflexivity | exact I].
Qed.

(** ** How the bin closes *)

Lemma turned_quarter (k : Q) (n : Z) (s : vec3) :
  quarter_turns (PiTimes k) = Some n ->
  turned_half_extents (AxisAngleWXYZ rad0 rad0 (PiTimes k)) s
  = Some (if Z.odd n then Vec3 (vy s) (vx s) (vz s) else s).
Proof.
  intros H. unfold turned_half_extents. rewrite H. reflexivity.
Qed.

(** X5.  Turned by its angle, each wall of a Bin lies along its side: walls
    0 and 2 (a quarter turn either way) have their thickness along y and run
    the full x extent of the bin, walls 1 and 3 (no turn, a half turn) have
    their thickness along x and run the full y extent; all four have the
    full height of the bin. *)
Theorem X5_bin_walls_turned_along_their_sides (p : Bin.params) :
  let self := Bin.set_attrs p in
  let args := Bin._get_geom_attrs self in
  let h := total_size args in
  let wt := Bin.p_wall_thickness p in
  exists g0 w0 w1 w2 w3 e0 e1 e2 e3,
    geom_list (geoms args) = [g0; w0; w1; w2; w3] /\
    turned_half_extents (g_quat w0) (g_size w0) = Some e0 /\
    turned_half_extents (g_quat w1) (g_size w1) = Some e1 /\
    turned_half_extents (g_quat w2) (g_size w2) = Some e2 /\
    turned_half_extents (g_quat w3) (g_size w3) = Some e3 /\
    e0 =v= Vec3 (vx h) (wt / 2) (vz h) /\
    e1 =v= Vec3 (wt / 2) (vy h) (vz h) /\
    e2 =v= Vec3 (vx h) (wt / 2) (vz h) /\
    e3 =v= Vec3 (wt / 2) (vy h) (vz h).
Proof.
  intros self args h wt. unfold args.
  rewrite bin_geom_list.
  do 9 eexists. split; [reflexivity|].
  split; [apply (turned_quarter _ 1); reflexivity|].
  split; [apply (turned_quarter _ 0); reflexivity|].
  split; [apply (turned_quarter _ (-1)); reflexivity|].
  split; [apply (turned_quarter _ 2); reflexivity|].
  unfold h, args, self. cbn [Z.odd]. solve_layout.
Qed.

(** X6.  The x and y half-extents of the Bin base slab are the centre
    offsets of the walls, (binSize - wallThickness)/2 on each axis: the slab
    reaches the mid-plane of every wall, negated for the walls on the
    negative side. *)
Theorem X6_bin_base_reaches_wall_midplanes (p : Bin.params) :
  let args := Bin._get_geom_attrs (Bin.set_attrs p) in
  exists g0 w0 w1 w2 w3,
    geom_list (geoms args) = [g0; w0; w1; w2; w3] /\
    vx (g_size g0) == vx (g_location w3) /\
    - vx (g_size g0) == vx (g_location w1) /\
    vy (g_size g0) == vy (g_location w2) /\
    - vy (g_size g0) == vy (g_location w0).
Proof.
  intros args. unfold args.
  rewrite bin_geom_list.
  do 5 eexists. split; [reflexivity|].
  solve_layout.
Qed.

(** X7.  Opposite walls of a Bin mirror each other: walls 0 and 2, and walls
    1 and 3, have opposite centres, equal half-extents, and rotations half a
    turn apart. *)
Theorem X7_bin_opposite_walls_mirror (p : Bin.params) :
  let args := Bin._get_geom_attrs (Bin.set_attrs p) in
  exists g0 w0 w1 w2 w3 r0 r1 r2 r3,
    geom_list (geoms args) = [g0; w0; w1; w2; w3] /\
    map g_quat [w0; w1; w2; w3]
      = map (AxisAngleWXYZ rad0 rad0) [r0; r1; r2; r3] /\
    Np.add (g_location w0) (g_location w2) =v= Vec3 0 0 0 /\
    Np.add (g_location w1) (g_location w3) =v= Vec3 0 0 0 /\
    g_size w0 =v= g_size w2 /\
    g_size w1 =v= g_size w3 /\
    degrees r0 - degrees r2 == 180 /\
    degrees r3 - degrees r1 == 180.
Proof.
  intros args. unfold args.
  rewrite bin_geom_list.
  do 9 eexists. split; [reflexivity|]. split; [reflexivity|].
  solve_layout.
Qed.

(** ** Degenerate and well-formed boxes *)

Lemma half_pos (x : Q) : 0 < x / 2 <-> 0 < x.
Proof.
  setoid_replace (x / 2) with (x * (1 # 2)) by field. split; intros H; lra.
Qed.

(** X8.  The five primitives of a Bin all have strictly positive
    half-extents exactly when 0 < wallThickness, wallThickness < binSize.x,
    wallThickness < binSize.y and 0 < binSize.z; a wall as thick as the bin
    is wide leaves the base slab without extent. *)
Theorem X8_bin_boxes_positive_iff (p : Bin.params) :
  Forall (fun g => positive_box (g_size g))
         (geom_list (geoms (Bin._get_geom_attrs (Bin.set_attrs p))))
  <->
  (0 < Bin.p_wall_thickness p /\
   Bin.p_wall_thickness p < vx (Bin.p_bin_size p) /\
   Bin.p_wall_thickness p < vy (Bin.p_bin_size p) /\
   0 < vz (Bin.p_bin_size p)).
Proof.
  rewrite bin_geom_list.
  rewrite !Forall_cons_iff, Forall_nil_iff.
  unfold positive_box. unfold_layout.
  rewrite !half_pos.
  set (a := vx (Bin.p_bin_size p)).
  set (b := vy (Bin.p_bin_size p)).
  set (c := vz (Bin.p_bin_size p)).
  set (w := Bin.p_wall_thickness p).
  split.
  - intros ((Ha & Hb & Hw) & (_ & _ & Hc) & _). repeat split; lra.
  - intros (Hw & Ha & Hb & Hc). repeat split; lra.
Qed.

(** X9.  The three primitives of a MugTree all have strictly positive
    half-extents exactly when every component of baseSize, treeSize and
    branchSize is strictly positive; branchHeight plays no part. *)
Theorem X9_mug_tree_boxes_positive_iff (p : MugTree.params) :
  Forall (fun g => positive_box (g_size g))
         (geom_list (geoms (MugTree._get_geom_attrs (MugTree.set_attrs p))))
  <->
  (positive_box (MugTree.p_base_size p) /\
   positive_box (MugTree.p_tree_size p) /\
   positive_box (MugTree.p_branch_size p)).
Proof.
  rewrite mug_tree_geom_list.
  rewrite !Forall_cons_iff, Forall_nil_iff.
  unfold positive_box. unfold_layout.
  rewrite !half_pos. tauto.
Qed.

(** ** Appearance and geometry do not mix *)

(** X10.  Two Bins of the same binSize and wallThickness have the same
    geometry whatever their names, colours, texture flag, transparency,
    friction and density: the same types, names, locations, orientations
    and half-extents of the primitives, the same overall half-extent, and
    a contain region of the same place and size. *)
Theorem X10_bin_geometry_ignores_appearance (p1 p2 : Bin.params)
  (Hsize : Bin.p_bin_size p1 = Bin.p_bin_size p2)
  (Hwt : Bin.p_wall_thickness p1 = Bin.p_wall_thickness p2) :
  let a1 := Bin._get_geom_attrs (Bin.set_attrs p1) in
  let a2 := Bin._get_geom_attrs (Bin.set_attrs p2) in
  let s1 := Bin.contain_region_site_str (Bin.set_attrs p1) in
  let s2 := Bin.contain_region_site_str (Bin.set_attrs p2) in
  geom_types (geoms a1) = geom_types (geoms a2) /\
  geom_names (geoms a1) = geom_names (geoms a2) /\
  geom_locations (geoms a1) = geom_locations (geoms a2) /\
  geom_quats (geoms a1) = geom_quats (geoms a2) /\
  geom_sizes (geoms a1) = geom_sizes (geoms a2) /\
  total_size a1 = total_size a2 /\
  site_pos s1 = site_pos s2 /\
  site_size s1 = site_size s2.
Proof.
  intros a1 a2 s1 s2. subst a1 a2 s1 s2.
  destruct p1 as [n1 b1 w1 t1 f1 d1 u1 c1], p2 as [n2 b2 w2 t2 f2 d2 u2 c2].
  cbn in Hsize, Hwt. subst b2 w2.
  repeat split; reflexivity.
Qed.

Lemma X10_bin_geometry_ignores_appearance_witness :
  Bin.p_bin_size Bin.defaults = Bin.p_bin_size bin_flat_no_rgba /\
  Bin.p_wall_thickness Bin.defaults = Bin.p_wall_thickness bin_flat_no_rgba /\
  geom_sizes (geoms (Bin._get_geom_attrs (Bin.set_attrs Bin.defaults)))
  = geom_sizes (geoms (Bin._get_geom_attrs (Bin.set_attrs bin_flat_no_rgba))).
Proof.
  split; [reflexivity|]. split; [reflexivity|].
  apply (X10_bin_geometry_ignores_appearance Bin.defaults bin_flat_no_rgba);
    reflexivity.
Defined.

(** X11.  With use_texture true the rgba argument is ignored: whatever
    rgba is passed, a Bin and a MugTree hand the same dictionary to the
    superclass. *)
Theorem X11_rgba_ignored_with_texture
        (pb : Bin.params) (pm : MugTree.params) (c : option rgba_t)
  (Hb : Bin.p_use_texture pb = true)
  (Hm : MugTree.p_use_texture pm = true) :
  Bin._get_geom_attrs (Bin.set_attrs (bin_with_rgba c pb))
  = Bin._get_geom_attrs (Bin.set_attrs pb) /\
  MugTree._get_geom_attrs (MugTree.set_attrs (mug_tree_with_rgba c pm))
  = MugTree._get_geom_attrs (MugTree.set_attrs pm).
Proof.
  destruct pb as [n1 b1 w1 t1 f1 d1 u1 c1], pm as [n2 bs h2 br ts f2 d2 u2 c2].
  cbn in Hb, Hm. subst u1 u2.
  split.
  - unfold Bin._get_geom_attrs, Bin.base, Bin.wall, Bin.wall_rgba,
      Bin.wall_mat, Bin.set_attrs, bin_with_rgba; cbn.
    destruct t1; reflexivity.
  - reflexivity.
Qed.

Lemma X11_rgba_ignored_with_texture_witness :
  Bin.p_use_texture Bin.defaults = true /\
  MugTree.p_use_texture (MugTree.defaults "mug_tree") = true /\
  Bin._get_geom_attrs (Bin.set_attrs (bin_with_rgba None Bin.defaults))
  = Bin._get_geom_attrs (Bin.set_attrs Bin.defaults) /\
  MugTree._get_geom_attrs
    (MugTree.set_attrs (mug_tree_with_rgba None (MugTree.defaults "mug_tree")))
  = MugTree._get_geom_attrs (MugTree.set_attrs (MugTree.defaults "mug_tree")).
Proof.
  split; [reflexivity|]. split; [reflexivity|].
  apply (X11_rgba_ignored_with_texture
           Bin.defaults (MugTree.defaults "mug_tree") None);
    reflexivity.
Defined.

(** X12.  Every material a primitive refers to is defined by the object:
    in every Bin and every MugTree the constructors build, a primitive's
    material name, when it has one, is the name of a material the
    constructor appended. *)
Theorem X12_material_references_resolve
        (fromstring : string -> option string)
        (pb : Bin.params) (pm : MugTree.params) :
  match Bin.init fromstring pb with
  | Ok ob =>
      Forall (material_resolves (Bin.materials ob))
             (geom_list (geoms (Bin.super_args ob)))
  | Raise _ => True
  end /\
  match MugTree.init fromstring pm with
  | Ok om =>
      Forall (material_resolves (MugTree.materials om))
             (geom_list (geoms (MugTree.super_args om)))
  | Raise _ => True
  end.
Proof.
  assert (Hres : forall ms g (b : bool),
             ms = [CustomMaterial "WoodLight" "light_wood" "light_wood_mat"
                     [("type", "cube")]%string
                     [("texrepeat", "3 3"); ("specular", "0.4");
                      ("shininess", "0.1")]%string] ->
             g_material g = (if b then Some "light_wood_mat"%string else None) ->
             material_resolves ms g).
  { intros ms g b -> Hg. unfold material_resolves. rewrite Hg.
    destruct b; [|exact I].
    eexists; split; [left; reflexivity | reflexivity]. }
  split.
  - unfold Bin.init, Bin._add_contain_region_site, parse_site.
    destruct (fromstring _); [|exact I].
    cbn [Bin.super_args Bin.materials].
    rewrite bin_geom_list.
    apply Forall_cons.
    { apply (Hres _ _ (Bin.p_use_texture pb)); reflexivity. }
    repeat (apply Forall_cons;
            [ apply (Hres _ _ (negb (Bin.p_transparent_walls pb)
                               && Bin.p_use_texture pb));
              [ reflexivity
              | cbn; unfold Bin.wall_mat; cbn;
                destruct (Bin.p_transparent_walls pb),
                         (Bin.p_use_texture pb); reflexivity ] |]).
    apply Forall_nil.
  - unfold MugTree.init, MugTree._add_hang_region_site, parse_site.
    destruct (fromstring _); [|exact I].
    cbn [MugTree.super_args MugTree.materials].
    rewrite mug_tree_geom_list.
    repeat (apply Forall_cons;
            [ apply (Hres _ _ (MugTree.p_use_texture pm)); reflexivity |]).
    apply Forall_nil.
Qed.

(** ** Site names *)





(** ** The material *)

